(** * main.py: a two-question console session (greet, then square)

    The script asks for a name, prints a greeting, asks for a number and
    prints its square.  This file embeds the script and the parts of the
    Python runtime it calls ([input], [print], [int], [**], f-strings), and
    proves the properties of the session.

    Conventions of the embedding:
    - a Python [str] is a list of Unicode code points ([N]); [py "..."]
      turns a literal into such a list;
    - a Python [int] is a [Z];
    - the text streams are modelled after decoding / before encoding:
      [stdin] is the text still to be read, assumed to be text that the
      stream's decoder accepts (what happens on undecodable bytes is not
      modelled), and every interaction with the console is recorded, in
      order, in [events];
    - [input] has two modes, as in CPython: when standard input and
      standard output are both terminals the prompt goes to standard
      error and the last character of the line read is dropped; otherwise
      the prompt goes to standard output and only a final newline is
      dropped.  The mode is a parameter, [terminal];
    - an exception aborts the rest of the computation ([Raise]); the script
      has no [try], so a raised exception reaches the top level. *)

From Stdlib Require Import ZArith NArith String Ascii List Bool Lia.
Import ListNotations.

(** ** Text *)

Definition char := N.
Definition str := list char.

Definition py (s : string) : str := map N_of_ascii (list_ascii_of_string s).

Definition NEWLINE : char := 10%N.

(** ** Outcomes, console events and the monad of script computations *)

(** [EOFError] is the spec's InputExhausted, [ValueError] its ParseError. *)
Inductive exn := EOFError | ValueError.

Inductive outcome (A : Type) :=
| Normal (a : A)
| Raise (e : exn).
Arguments Normal {A} a.
Arguments Raise {A} e.

(** What happens on the console: [Prompt s] is the prompt text that [input]
    writes to standard output (no newline added) when the streams are not
    terminals, [PromptErr s] the same text written to standard error when
    they are, [Read s] is one [readline] on standard input with the text
    it returned (empty at end of input), [Print s] is one [print] call,
    which writes [s] and a newline to standard output. *)
Inductive event :=
| Prompt (s : str)
| PromptErr (s : str)
| Read (s : str)
| Print (s : str).

Definition is_prompt (e : event) : bool :=
  match e with Prompt _ | PromptErr _ => true | _ => false end.

Record World := mkWorld { stdin : str; events : list event }.

Definition Py (A : Type) := World -> outcome A * World.

Definition ret {A} (a : A) : Py A := fun w => (Normal a, w).

Definition raise {A} (e : exn) : Py A := fun w => (Raise e, w).

Definition bind {A B} (m : Py A) (k : A -> Py B) : Py B :=
  fun w => match m w with
           | (Normal a, w') => k a w'
           | (Raise e, w') => (Raise e, w')
           end.

Definition lift {A} (r : outcome A) : Py A := fun w => (r, w).

Definition emit (e : event) : Py unit :=
  fun w => (Normal tt, mkWorld (stdin w) (events w ++ [e])).

Notation "x <- m ;; k" := (bind m (fun x => k))
  (at level 61, m at next level, right associativity).
Notation "m ;; k" := (bind m (fun _ => k))
  (at level 61, right associativity).

(** The text on standard output after a sequence of events: the prompts
    written there and the printed lines; a prompt written to standard
    error is not part of it. *)
Fixpoint stdout_text (t : list event) : str :=
  match t with
  | [] => []
  | Prompt s :: t' => s ++ stdout_text t'
  | PromptErr _ :: t' => stdout_text t'
  | Read _ :: t' => stdout_text t'
  | Print s :: t' => s ++ [NEWLINE] ++ stdout_text t'
  end.

(** The lines written by [print], in order. *)
Fixpoint printed (t : list event) : list str :=
  match t with
  | [] => []
  | Print s :: t' => s :: printed t'
  | _ :: t' => printed t'
  end.

(** The texts returned by the reads of standard input, in order. *)
Fixpoint reads (t : list event) : list str :=
  match t with
  | [] => []
  | Read s :: t' => s :: reads t'
  | _ :: t' => reads t'
  end.

(** ** Builtins: [input] and [print] *)

(** [sys.stdin.readline()]: the text up to and including the next newline,
    or whatever is left when the input ends first; empty at end of input. *)
Fixpoint readline (s : str) : str * str :=
  match s with
  | [] => ([], [])
  | c :: s' =>
      if N.eqb c NEWLINE then ([c], s')
      else let (l, r) := readline s' in (c :: l, r)
  end.

(** One [readline] on standard input, at the level of text: the input is
    taken as already decoded, and what the script has not read stays on
    [stdin] (the buffering of the byte stream underneath is not
    modelled). *)
Definition sys_stdin_readline : Py str :=
  fun w => let (l, r) := readline (stdin w) in
           (Normal l, mkWorld r (events w ++ [Read l])).

(** The line without its trailing newline, when it has one. *)
Fixpoint strip_newline (l : str) : str :=
  match l with
  | [] => []
  | [c] => if N.eqb c NEWLINE then [] else [c]
  | c :: l' => c :: strip_newline l'
  end.

(** What the terminal branch of [input] keeps of the line read: the last
    character is dropped, whatever it is, and then a carriage return that
    ends what is left. *)
Definition CR : char := 13%N.

Definition tty_strip (l : str) : str :=
  let l' := removelast l in
  match rev l' with
  | c :: _ => if N.eqb c CR then removelast l' else l'
  | [] => l'
  end.

(** The text [input] returns for the line read, and the event of its
    prompt, by mode. *)
Definition chomp (terminal : bool) (l : str) : str :=
  if terminal then tty_strip l else strip_newline l.

Definition prompt_event (terminal : bool) (prompt : str) : event :=
  if terminal then PromptErr prompt else Prompt prompt.

(** [input(prompt)]: write the prompt (to standard error on a terminal, to
    standard output otherwise), read a line; [EOFError] if nothing could
    be read, else the line without its last character (terminal) or
    without its trailing newline (otherwise). *)
Definition input (terminal : bool) (prompt : str) : Py str :=
  emit (prompt_event terminal prompt) ;;
  l <- sys_stdin_readline ;;
  match l with
  | [] => raise EOFError
  | _ => ret (chomp terminal l)
  end.

Definition print (s : str) : Py unit := emit (Print s).

(** ** Builtin: [int(str)] and the decimal text of an [int] *)

(** [Py_ISSPACE]: the ASCII white space, tab to carriage return and blank. *)
Definition Py_ISSPACE (c : char) : bool :=
  (N.leb 9 c && N.leb c 13) || N.eqb c 32.

Definition UNDERSCORE : char := 95%N.

(** [_PyLong_DigitValue[c] < 10]: the value of an ASCII decimal digit. *)
Definition digit_value (c : char) : option N :=
  if N.leb 48 c && N.leb c 57 then Some (c - 48)%N else None.

Fixpoint skip_spaces (s : str) : str :=
  match s with
  | [] => []
  | c :: s' => if Py_ISSPACE c then skip_spaces s' else s
  end.

(** The validation loop of [long_from_string_base]: consume digits and
    underscores, refuse two underscores in a row.  Returns the last
    character consumed ([prev], 0 at the start), the digit values met,
    and the text from the first character that is neither. *)
Fixpoint scan (prev : char) (p : str) : option (char * list N * str) :=
  match p with
  | [] => Some (prev, [], [])
  | c :: p' =>
      match digit_value c with
      | Some d =>
          match scan c p' with
          | Some (pv, ds, r) => Some (pv, d :: ds, r)
          | None => None
          end
      | None =>
          if N.eqb c UNDERSCORE then
            if N.eqb prev UNDERSCORE then None else scan c p'
          else Some (prev, [], p)
      end
  end.

(** The number a sequence of decimal digit values denotes. *)
Definition digits_value (ds : list N) : N :=
  fold_left (fun v d => (v * 10 + d)%N) ds 0%N.

(** [_PY_LONG_MAX_STR_DIGITS_THRESHOLD]: conversions of at most this many
    digits are never limited. *)
Definition MAX_STR_DIGITS_THRESHOLD : nat := 640.

(** [_PY_LONG_DEFAULT_MAX_STR_DIGITS], the value of
    [sys.get_int_max_str_digits()] unless the user changes it. *)
Definition DEFAULT_MAX_STR_DIGITS : nat := 4300.

(** The test both conversions make: [limit] is
    [sys.get_int_max_str_digits()], 0 meaning no limit. *)
Definition exceeds_limit (limit digits : nat) : bool :=
  Nat.ltb MAX_STR_DIGITS_THRESHOLD digits && Nat.ltb 0 limit
  && Nat.ltb limit digits.

(** The decimal digits of a natural number, most significant first, one
    digit for zero.  [fuel] bounds the number of digits produced. *)
Fixpoint to_digits (fuel : nat) (n : N) (acc : list N) : list N :=
  match fuel with
  | O => acc
  | S f =>
      if N.ltb n 10 then n :: acc
      else to_digits f (n / 10)%N ((n mod 10)%N :: acc)
  end.

Definition digits_of (n : N) : list N :=
  to_digits (S (N.to_nat (N.size n))) n [].

Definition digit_char (d : N) : char := (48 + d)%N.

Definition MINUS : char := 45%N.
Definition PLUS : char := 43%N.

(** The decimal text of an integer: a minus sign when negative, then the
    digits without leading zeros. *)
Definition decimal (n : Z) : str :=
  let ds := map digit_char (digits_of (Z.abs_N n)) in
  if Z.ltb n 0 then MINUS :: ds else ds.

(** ** The interpreter-dependent part *)

(** White space beyond ASCII as [Py_UNICODE_ISSPACE] of CPython's generated
    tables has it, and an excerpt of the decimal digits beyond ASCII
    (Arabic-Indic, extended Arabic-Indic, Devanagari and fullwidth digits).
    The script's behaviour is proved for arbitrary tables; these serve the
    concrete runs below. *)
Definition ucd_isspace (c : char) : bool :=
  (N.leb 9 c && N.leb c 13) || (N.leb 28 c && N.leb c 32)
  || N.eqb c 133 || N.eqb c 160 || N.eqb c 5760
  || (N.leb 8192 c && N.leb c 8202)
  || N.eqb c 8232 || N.eqb c 8233 || N.eqb c 8239 || N.eqb c 8287
  || N.eqb c 12288.

Definition ucd_todecimal_excerpt (c : char) : option N :=
  if N.leb 1632 c && N.leb c 1641 then Some (c - 1632)%N
  else if N.leb 1776 c && N.leb c 1785 then Some (c - 1776)%N
  else if N.leb 2406 c && N.leb c 2415 then Some (c - 2406)%N
  else if N.leb 65296 c && N.leb c 65305 then Some (c - 65296)%N
  else None.

(** [b ** e] on integers, for an exponent that is not negative. *)
Definition int_pow (b : Z) (e : N) : Z := Z.pow b (Z.of_N e).
Arguments int_pow : simpl never.

(** A plain base-10 numeral: one or more ASCII digits and nothing else. *)
Definition is_digit (c : char) : bool := N.leb 48 c && N.leb c 57.

Definition plain_numeral (s : str) : bool :=
  match s with [] => false | _ => forallb is_digit s end.

(** The standard decimal form: ["0"], or an optional minus sign followed by
    digits that do not start with a zero. *)
Definition canonical_decimal (s : str) : bool :=
  match s with
  | [] => false
  | [c] => is_digit c
  | c :: (d :: _) as r =>
      if N.eqb c MINUS then negb (N.eqb d 48) && forallb is_digit r
      else negb (N.eqb c 48) && forallb is_digit s
  end.

(** ** The spec's state machine

    The three phases [AwaitingName], [AwaitingNumber] and [Done] are the
    spec's reading of the script, which does not name them; they are
    written here from the spec, to compare the script with.  A phase is
    left by one complete exchange with the console (one prompt, one read,
    one printed line); there is no transition back, none from a phase to
    itself and none out of [Done].  [machine ph t] is the phase reached
    from [ph] by the events [t], which are complete exchanges possibly
    followed by the beginning of one more that was cut short; [None] when
    [t] is not a run of the machine. *)
Inductive phase := AwaitingName | AwaitingNumber | Done.

Definition next_phase (ph : phase) : option phase :=
  match ph with
  | AwaitingName => Some AwaitingNumber
  | AwaitingNumber => Some Done
  | Done => None
  end.

Fixpoint machine (ph : phase) (t : list event) : option phase :=
  match t with
  | [] => Some ph
  | p :: Read _ :: Print _ :: t' =>
      match is_prompt p, next_phase ph with
      | true, Some ph' => machine ph' t'
      | _, _ => None
      end
  | [p] | [p; Read _] =>
      match is_prompt p, next_phase ph with
      | true, Some _ => Some ph
      | _, _ => None
      end
  | _ => None
  end.

Section Interpreter.

(** The Unicode character tables of the interpreter, consulted only for
    code points from 127 on, and the limit on integer/string conversions
    ([sys.get_int_max_str_digits()], 0 for none). *)
Variable Py_UNICODE_ISSPACE : char -> bool.
Variable Py_UNICODE_TODECIMAL : char -> option N.
Variable int_max_str_digits : nat.

(** Whether standard input and standard output are both terminals. *)
Variable terminal : bool.

(** [_PyUnicode_TransformDecimalAndSpaceToASCII]: an ASCII string is
    returned as it is; otherwise white space becomes a blank, a decimal
    digit its ASCII digit, and the first other non-ASCII character
    becomes a question mark, where the copy stops. *)
Fixpoint transform_loop (s : str) : str :=
  match s with
  | [] => []
  | ch :: s' =>
      if N.ltb ch 127 then ch :: transform_loop s'
      else if Py_UNICODE_ISSPACE ch then 32%N :: transform_loop s'
      else match Py_UNICODE_TODECIMAL ch with
           | Some d => digit_char d :: transform_loop s'
           | None => [63%N]
           end
  end.

Definition PyUnicode_IS_ASCII (s : str) : bool :=
  forallb (fun c => N.ltb c 128) s.

Definition TransformDecimalAndSpaceToASCII (s : str) : str :=
  if PyUnicode_IS_ASCII s then s else transform_loop s.

(** [long_from_string_base] for base 10, on the text after the sign:
    no leading, doubled or trailing underscore, at least one digit, only
    white space after the numeral (a NUL ends the C scan and is then
    refused by the caller's length test: a [ValueError] as well), and
    the digit limit, tested before the digits are converted. *)
Definition long_from_string_base (start : str) : outcome N :=
  match start with
  | c :: _ => if N.eqb c UNDERSCORE then Raise ValueError else
      match scan 0%N start with
      | None => Raise ValueError
      | Some (prev, ds, e) =>
          if N.eqb prev UNDERSCORE then Raise ValueError
          else if Nat.eqb (length e) (length start) then Raise ValueError
          else match skip_spaces e with
               | _ :: _ => Raise ValueError
               | [] =>
                   if exceeds_limit int_max_str_digits (length ds)
                   then Raise ValueError
                   else Normal (digits_value ds)
               end
      end
  | [] => Raise ValueError
  end.

(** [PyLong_FromString(s, &end, 10)] followed by the caller's test that
    the whole text was consumed. *)
Definition PyLong_FromString (s : str) : outcome Z :=
  let s1 := skip_spaces s in
  let (sign, s2) :=
    match s1 with
    | c :: r => if N.eqb c PLUS then (1%Z, r)
                else if N.eqb c MINUS then ((-1)%Z, r)
                else (1%Z, s1)
    | [] => (1%Z, s1)
    end in
  match long_from_string_base s2 with
  | Normal v => Normal (sign * Z.of_N v)%Z
  | Raise e => Raise e
  end.

(** [int(s)] for a [str] argument. *)
Definition int (s : str) : outcome Z :=
  PyLong_FromString (TransformDecimalAndSpaceToASCII s).

(** [format(n, "")], which is [str(n)]: the decimal text, refused when
    it has more digits than the limit. *)
Definition format_int (n : Z) : outcome str :=
  let s := decimal n in
  let negative := if Z.ltb n 0 then 1%nat else 0%nat in
  if Nat.ltb MAX_STR_DIGITS_THRESHOLD (length s) && Nat.ltb 0 int_max_str_digits
     && Nat.ltb int_max_str_digits (length s - negative)
  then Raise ValueError
  else Normal s.

(** ** The script *)

(** [f"Hello, {name}! Welcome to the improved code."] *)
Definition greet (name : str) : str :=
  py "Hello, " ++ name ++ py "! Welcome to the improved code.".

(** The way back, to state that the name is interpolated as it is: the
    text of a greeting between "Hello, " and "! Welcome to the improved
    code.", if the text has that form. *)
Fixpoint strip_prefix (p s : str) : option str :=
  match p, s with
  | [], _ => Some s
  | c :: p', d :: s' => if N.eqb c d then strip_prefix p' s' else None
  | _ :: _, [] => None
  end.

Definition strip_suffix (p s : str) : option str :=
  option_map (@rev char) (strip_prefix (rev p) (rev s)).

Definition ungreet (g : str) : option str :=
  match strip_prefix (py "Hello, ") g with
  | Some r => strip_suffix (py "! Welcome to the improved code.") r
  | None => None
  end.

(** [f"The square of {number} is {result}"]: the fields are formatted
    from left to right. *)
Definition square_message (number result : Z) : Py str :=
  a <- lift (format_int number) ;;
  b <- lift (format_int result) ;;
  ret (py "The square of " ++ a ++ py " is " ++ b).

Definition main : Py unit :=
  user_name <- input terminal (py "Please enter your name: ") ;;
  let greeting := greet user_name in
  print greeting ;;
  number <- (l <- input terminal (py "Enter a number to square: ") ;;
             lift (int l)) ;;
  let result := int_pow number 2 in
  msg <- square_message number result ;;
  print msg.

(** One invocation of the script on the given standard input. *)
Definition run (inp : str) : outcome unit * World := main (mkWorld inp []).

(** ** Vocabulary of the statements *)

Definition name_prompt : str := py "Please enter your name: ".
Definition number_prompt : str := py "Enter a number to square: ".

(** The first exchange, given the line read: prompt, read, greeting. *)
Definition greeted (l1 : str) : list event :=
  [prompt_event terminal name_prompt; Read l1;
   Print (greet (chomp terminal l1))].

(** The second exchange up to its read. *)
Definition asked (l2 : str) : list event :=
  [prompt_event terminal number_prompt; Read l2].

(** The text of the square line for a number and a result. *)
Definition square_line (number result : Z) : str :=
  py "The square of " ++ decimal number ++ py " is " ++ decimal result.

(** How an invocation on input [inp] can end: the outcome and the final
    world, by the place where the script stops. *)
Inductive session (inp : str) : outcome unit -> World -> Prop :=
| eof_at_name :
    inp = [] ->
    session inp (Raise EOFError) (mkWorld [] [prompt_event terminal name_prompt; Read []])
| eof_at_number l1 :
    readline inp = (l1, []) -> l1 <> [] ->
    session inp (Raise EOFError) (mkWorld [] (greeted l1 ++ asked []))
| bad_number l1 r1 l2 r2 :
    readline inp = (l1, r1) -> l1 <> [] ->
    readline r1 = (l2, r2) -> l2 <> [] ->
    int (chomp terminal l2) = Raise ValueError ->
    session inp (Raise ValueError) (mkWorld r2 (greeted l1 ++ asked l2))
| too_long_to_print l1 r1 l2 r2 n :
    readline inp = (l1, r1) -> l1 <> [] ->
    readline r1 = (l2, r2) -> l2 <> [] ->
    int (chomp terminal l2) = Normal n ->
    format_int n = Raise ValueError \/ format_int (n * n) = Raise ValueError ->
    session inp (Raise ValueError) (mkWorld r2 (greeted l1 ++ asked l2))
| completed l1 r1 l2 r2 n :
    readline inp = (l1, r1) -> l1 <> [] ->
    readline r1 = (l2, r2) -> l2 <> [] ->
    int (chomp terminal l2) = Normal n ->
    format_int n = Normal (decimal n) ->
    format_int (n * n) = Normal (decimal (n * n)) ->
    session inp (Normal tt)
      (mkWorld r2 (greeted l1 ++ asked l2 ++ [Print (square_line n (n * n))])).

(** The number of decimal digits of an integer, and the integers whose
    decimal text the conversions accept under the limit. *)
Definition ndigits (n : Z) : nat := length (digits_of (Z.abs_N n)).

Definition within_limit (n : Z) : Prop :=
  int_max_str_digits = 0%nat \/ (ndigits n <= int_max_str_digits)%nat.

(** * Properties *)

(** ** Decimal digits *)

Lemma digits_value_snoc ds d :
  digits_value (ds ++ [d]) = (digits_value ds * 10 + d)%N.
Proof. unfold digits_value. rewrite fold_left_app. reflexivity. Qed.

Lemma to_digits_acc fuel : forall n acc,
  to_digits fuel n acc = to_digits fuel n [] ++ acc.
Proof.
  induction fuel as [|f IH]; intros n acc; simpl; [reflexivity|].
  destruct (N.ltb n 10); [reflexivity|].
  rewrite (IH _ (_ :: acc)), (IH _ [_]), <- app_assoc. reflexivity.
Qed.

Lemma to_digits_value fuel : forall n,
  (n < 10 ^ N.of_nat fuel)%N -> digits_value (to_digits fuel n []) = n.
Proof.
  induction fuel as [|f IH]; intros n Hn.
  - simpl in *. unfold digits_value; simpl. lia.
  - simpl to_digits. destruct (N.ltb_spec n 10) as [Hs|Hs].
    + unfold digits_value; simpl. reflexivity.
    + rewrite to_digits_acc, digits_value_snoc, IH.
      * pose proof (N.div_mod n 10). lia.
      * apply N.Div0.div_lt_upper_bound.
        rewrite Nat2N.inj_succ, N.pow_succ_r' in Hn. exact Hn.
Qed.

Lemma to_digits_small fuel : forall n acc,
  Forall (fun d => d < 10)%N acc ->
  Forall (fun d => d < 10)%N (to_digits fuel n acc).
Proof.
  induction fuel as [|f IH]; intros n acc Hacc; simpl; [assumption|].
  destruct (N.ltb_spec n 10) as [Hs|Hs].
  - constructor; assumption.
  - apply IH. constructor; [|assumption].
    apply N.mod_lt. discriminate.
Qed.

Lemma to_digits_head fuel : forall n acc,
  n <> 0%N -> (n < 10 ^ N.of_nat fuel)%N ->
  exists d ds, to_digits fuel n acc = d :: ds /\ d <> 0%N.
Proof.
  induction fuel as [|f IH]; intros n acc Hz Hn.
  - simpl in Hn. lia.
  - simpl. destruct (N.ltb_spec n 10) as [Hs|Hs].
    + eauto.
    + apply IH.
      * intros E. pose proof (N.div_mod n 10) as D.
        pose proof (N.mod_lt n 10). lia.
      * apply N.Div0.div_lt_upper_bound.
        rewrite Nat2N.inj_succ, N.pow_succ_r' in Hn. exact Hn.
Qed.

Lemma digits_of_fuel n : (n < 10 ^ N.of_nat (S (N.to_nat (N.size n))))%N.
Proof.
  rewrite Nat2N.inj_succ, N2Nat.id, N.pow_succ_r'.
  pose proof (N.size_gt n) as G.
  pose proof (N.pow_le_mono_l 2 10 (N.size n)) as M.
  lia.
Qed.

Lemma digits_of_value n : digits_value (digits_of n) = n.
Proof. apply to_digits_value, digits_of_fuel. Qed.

Lemma digits_of_small n : Forall (fun d => d < 10)%N (digits_of n).
Proof. apply to_digits_small. constructor. Qed.

Lemma digits_of_cons n : exists d ds, digits_of n = d :: ds.
Proof.
  unfold digits_of. simpl. destruct (N.ltb n 10); [eauto|].
  rewrite to_digits_acc.
  destruct (to_digits _ _ []); simpl; eauto.
Qed.

Lemma digits_of_head n :
  n <> 0%N -> exists d ds, digits_of n = d :: ds /\ d <> 0%N.
Proof. intros H. apply to_digits_head; [assumption|apply digits_of_fuel]. Qed.

Lemma digit_value_char d : (d < 10)%N -> digit_value (digit_char d) = Some d.
Proof.
  intros H. unfold digit_value, digit_char.
  destruct (N.leb_spec 48 (48 + d)); [|lia].
  destruct (N.leb_spec (48 + d) 57); [|lia].
  cbn [andb]. f_equal. lia.
Qed.

Lemma is_digit_char d : (d < 10)%N -> is_digit (digit_char d) = true.
Proof.
  intros H. unfold is_digit, digit_char.
  destruct (N.leb_spec 48 (48 + d)); [|lia].
  destruct (N.leb_spec (48 + d) 57); [reflexivity|lia].
Qed.

Lemma digit_chars_are_digits ds :
  Forall (fun d => d < 10)%N ds -> forallb is_digit (map digit_char ds) = true.
Proof.
  induction 1 as [|d ds Hd _ IH]; simpl; [reflexivity|].
  rewrite is_digit_char, IH by assumption. reflexivity.
Qed.

(** The number of digits grows with the number. *)
Lemma div10_lt n m : (n / 10 < m <-> n < 10 * m)%N.
Proof.
  pose proof (N.div_mod n 10) as D. pose proof (N.mod_lt n 10) as M.
  assert (T : 10%N <> 0%N) by discriminate.
  specialize (D T). specialize (M T).
  generalize dependent (n / 10)%N. generalize dependent (n mod 10)%N.
  intros r M q D. lia.
Qed.

Lemma to_digits_length fuel : forall n k,
  (n < 10 ^ N.of_nat fuel)%N -> fuel <> 0%nat ->
  (length (to_digits fuel n []) <= S k)%nat <-> (n < 10 ^ N.of_nat (S k))%N.
Proof.
  induction fuel as [|f IH]; intros n k Hn Hf; [congruence|].
  rewrite Nat2N.inj_succ, N.pow_succ_r' in Hn.
  rewrite Nat2N.inj_succ, N.pow_succ_r'.
  pose proof (N.pow_lower_bound 10 (N.of_nat k)) as P.
  cbn [to_digits]. destruct (N.ltb_spec n 10) as [Hs|Hs].
  - cbn [length]. split; intros _; lia.
  - rewrite to_digits_acc, length_app. cbn [length].
    assert (F : f <> 0%nat) by (intros ->; simpl in Hn; lia).
    apply div10_lt in Hn.
    destruct k as [|k].
    + split; [|simpl; lia].
      destruct f as [|f]; [congruence|]. cbn [to_digits].
      destruct (N.ltb (n / 10) 10); [cbn [length]; lia|].
      rewrite to_digits_acc, length_app. cbn [length]. lia.
    + rewrite <- div10_lt, <- (IH (n / 10)%N k Hn F). lia.
Qed.

Lemma digits_of_length_le a b :
  (a <= b)%N -> (length (digits_of a) <= length (digits_of b))%nat.
Proof.
  intros H. destruct (digits_of_cons b) as (d & ds & E).
  assert (L : (length (digits_of b) <= S (length ds))%nat)
    by (rewrite E; cbn [length]; lia).
  rewrite E. cbn [length].
  apply to_digits_length in L; [|apply digits_of_fuel|discriminate].
  apply to_digits_length; [apply digits_of_fuel|discriminate|lia].
Qed.

(** ** Parsing the decimal text back *)

Ltac Ncases :=
  repeat match goal with
    | |- context [N.leb ?a ?b] => destruct (N.leb_spec a b)
    | |- context [N.ltb ?a ?b] => destruct (N.ltb_spec a b)
    | |- context [N.eqb ?a ?b] => destruct (N.eqb_spec a b)
    end;
  cbn [andb orb negb]; try reflexivity; try discriminate; try lia.

Lemma is_digit_range c : is_digit c = true -> (48 <= c <= 57)%N.
Proof.
  unfold is_digit. intros H. apply andb_true_iff in H as [H1 H2].
  apply N.leb_le in H1, H2. lia.
Qed.

Lemma digit_is_plain c :
  is_digit c = true ->
  Py_ISSPACE c = false /\ N.eqb c PLUS = false /\ N.eqb c MINUS = false
  /\ N.eqb c UNDERSCORE = false /\ N.ltb c 128 = true.
Proof.
  intros H. apply is_digit_range in H.
  unfold Py_ISSPACE, PLUS, MINUS, UNDERSCORE. repeat split; Ncases.
Qed.

Lemma scan_digit_chars ds :
  Forall (fun d => d < 10)%N ds ->
  forall prev, exists pv,
    scan prev (map digit_char ds) = Some (pv, ds, [])
    /\ (ds <> [] -> is_digit pv = true).
Proof.
  induction 1 as [|d ds Hd _ IH]; intros prev.
  - exists prev. split; [reflexivity|congruence].
  - cbn [map scan]. rewrite digit_value_char by assumption.
    destruct (IH (digit_char d)) as (pv & E & Hpv). rewrite E.
    exists pv. split; [reflexivity|]. intros _.
    destruct ds; [|apply Hpv; discriminate].
    inversion E; subst. apply is_digit_char; assumption.
Qed.

Lemma long_from_digit_chars ds :
  ds <> [] -> Forall (fun d => d < 10)%N ds ->
  long_from_string_base (map digit_char ds) =
    if exceeds_limit int_max_str_digits (length ds) then Raise ValueError
    else Normal (digits_value ds).
Proof.
  intros Hne Hs. unfold long_from_string_base.
  destruct ds as [|d ds]; [congruence|].
  destruct (scan_digit_chars _ Hs 0%N) as (pv & E & Hpv).
  specialize (Hpv Hne). rewrite E.
  cbn [map]. inversion Hs; subst.
  destruct (digit_is_plain (digit_char d)) as (_ & _ & _ & U & _);
    [apply is_digit_char; assumption|].
  destruct (digit_is_plain pv Hpv) as (_ & _ & _ & U' & _).
  rewrite U, U'. reflexivity.
Qed.

Lemma decimal_is_ascii n : PyUnicode_IS_ASCII (decimal n) = true.
Proof.
  assert (A : forall ds, Forall (fun d => d < 10)%N ds ->
            forallb (fun c => N.ltb c 128) (map digit_char ds) = true).
  { induction 1 as [|d ds Hd _ IH]; simpl; [reflexivity|].
    rewrite IH. unfold digit_char. Ncases. }
  unfold PyUnicode_IS_ASCII, decimal.
  destruct (Z.ltb n 0); cbn [forallb]; rewrite A by apply digits_of_small;
    reflexivity.
Qed.

(** [int] reads the decimal text of [n] back as [n], unless the text has
    more digits than the limit allows. *)
Lemma int_decimal n :
  int (decimal n) =
    if exceeds_limit int_max_str_digits (ndigits n) then Raise ValueError
    else Normal n.
Proof.
  unfold int, TransformDecimalAndSpaceToASCII. rewrite decimal_is_ascii.
  unfold PyLong_FromString, decimal, ndigits.
  pose proof (digits_of_small (Z.abs_N n)) as Hs.
  destruct (digits_of_cons (Z.abs_N n)) as (d & ds & E).
  pose proof (digits_of_value (Z.abs_N n)) as V.
  assert (Hne : digits_of (Z.abs_N n) <> []) by (rewrite E; discriminate).
  pose proof (long_from_digit_chars _ Hne Hs) as L.
  destruct (Z.ltb_spec n 0) as [Hn|Hn].
  - cbn [skip_spaces]. change (Py_ISSPACE MINUS) with false. cbv iota.
    change (N.eqb MINUS PLUS) with false.
    change (N.eqb MINUS MINUS) with true. cbv iota.
    rewrite L, V. destruct (exceeds_limit _ _); [reflexivity|].
    f_equal. lia.
  - rewrite E in *. cbn [map skip_spaces]. inversion Hs; subst.
    destruct (digit_is_plain (digit_char d)) as (W & P & M & _ & _);
      [apply is_digit_char; assumption|].
    rewrite W, P, M. cbn [map] in L. rewrite L, V.
    destruct (exceeds_limit _ _); [reflexivity|].
    f_equal. lia.
Qed.

Lemma within_limit_ok n :
  within_limit n -> exceeds_limit int_max_str_digits (ndigits n) = false.
Proof.
  unfold within_limit, exceeds_limit. intros [H|H].
  - rewrite H. apply andb_false_iff. left. apply andb_false_iff. now right.
  - apply andb_false_iff. right. apply Nat.ltb_ge. assumption.
Qed.

Lemma format_int_within n : within_limit n -> format_int n = Normal (decimal n).
Proof.
  intros H. unfold format_int.
  assert (L : (length (decimal n) - (if Z.ltb n 0 then 1 else 0))%nat
              = ndigits n).
  { unfold decimal, ndigits. destruct (Z.ltb n 0); cbn [length];
      rewrite length_map; lia. }
  rewrite L. destruct H as [H|H].
  - rewrite H. cbn. rewrite andb_false_r. reflexivity.
  - apply Nat.ltb_ge in H. rewrite H, andb_false_r. reflexivity.
Qed.

(** ** Reading lines *)

Lemma readline_empty s r : readline s = ([], r) -> s = [] /\ r = [].
Proof.
  destruct s as [|c s]; simpl.
  - intros H; inversion H; auto.
  - destruct (N.eqb c NEWLINE); [discriminate|].
    destruct (readline s); discriminate.
Qed.

Lemma readline_line name rest :
  ~ In NEWLINE name ->
  readline (name ++ NEWLINE :: rest) = (name ++ [NEWLINE], rest).
Proof.
  induction name as [|c name IH]; simpl; intros H.
  - reflexivity.
  - destruct (N.eqb_spec c NEWLINE) as [->|_]; [tauto|].
    rewrite IH by tauto. reflexivity.
Qed.

Lemma strip_newline_line name : strip_newline (name ++ [NEWLINE]) = name.
Proof.
  induction name as [|c name IH]; [reflexivity|].
  simpl. rewrite IH. destruct name; reflexivity.
Qed.

Lemma tty_strip_line l : ~ In CR l -> tty_strip (l ++ [NEWLINE]) = l.
Proof.
  intros H. unfold tty_strip. rewrite removelast_last.
  destruct (rev l) as [|c r] eqn:E; [reflexivity|].
  destruct (N.eqb_spec c CR) as [->|_]; [|reflexivity].
  elim H. apply in_rev. rewrite E. now left.
Qed.

Lemma chomp_line l : ~ In CR l -> chomp terminal (l ++ [NEWLINE]) = l.
Proof.
  intros H. unfold chomp. destruct terminal;
    [apply tty_strip_line; assumption|apply strip_newline_line].
Qed.

(** ** Prompts in a sequence of events *)

Lemma reads_prompt t p rest :
  reads (prompt_event t p :: rest) = reads rest.
Proof. destruct t; reflexivity. Qed.

Lemma printed_prompt t p rest :
  printed (prompt_event t p :: rest) = printed rest.
Proof. destruct t; reflexivity. Qed.

Lemma stdout_text_prompt t p rest :
  stdout_text (prompt_event t p :: rest) =
    (if t then [] else p) ++ stdout_text rest.
Proof. destruct t; reflexivity. Qed.

Lemma is_prompt_event t p : is_prompt (prompt_event t p) = true.
Proof. destruct t; reflexivity. Qed.

Lemma reads_read s rest : reads (Read s :: rest) = s :: reads rest.
Proof. reflexivity. Qed.

Lemma reads_print s rest : reads (Print s :: rest) = reads rest.
Proof. reflexivity. Qed.

Lemma printed_read s rest : printed (Read s :: rest) = printed rest.
Proof. reflexivity. Qed.

Lemma printed_print s rest : printed (Print s :: rest) = s :: printed rest.
Proof. reflexivity. Qed.

Lemma stdout_text_read s rest :
  stdout_text (Read s :: rest) = stdout_text rest.
Proof. reflexivity. Qed.

Lemma stdout_text_print s rest :
  stdout_text (Print s :: rest) = s ++ [NEWLINE] ++ stdout_text rest.
Proof. reflexivity. Qed.

Ltac events_simpl :=
  unfold greeted, asked; cbn [app];
  repeat first
    [ rewrite reads_prompt | rewrite printed_prompt
    | rewrite stdout_text_prompt
    | rewrite reads_read | rewrite reads_print
    | rewrite printed_read | rewrite printed_print
    | rewrite stdout_text_read | rewrite stdout_text_print ];
  change (reads []) with (@nil str);
  change (printed []) with (@nil str);
  change (stdout_text []) with (@nil char);
  cbn [last length concat].

(** ** The conversions only raise [ValueError] *)

Lemma long_from_string_base_raises s e :
  long_from_string_base s = Raise e -> e = ValueError.
Proof.
  unfold long_from_string_base.
  destruct s as [|c s]; [congruence|].
  destruct (N.eqb c UNDERSCORE); [congruence|].
  destruct (scan 0%N (c :: s)) as [[[pv ds] r]|]; [|congruence].
  destruct (N.eqb pv UNDERSCORE); [congruence|].
  destruct (Nat.eqb _ _); [congruence|].
  destruct (skip_spaces r); [|congruence].
  destruct (exceeds_limit _ _); congruence.
Qed.

Lemma int_raises s e : int s = Raise e -> e = ValueError.
Proof.
  unfold int, PyLong_FromString.
  destruct (match skip_spaces _ with [] => _ | _ => _ end) as [sg s2].
  destruct (long_from_string_base s2) eqn:E; [discriminate|].
  intros H; inversion H; subst. eapply long_from_string_base_raises; eauto.
Qed.

Lemma format_int_cases n :
  format_int n = Normal (decimal n) \/ format_int n = Raise ValueError.
Proof.
  unfold format_int.
  destruct (_ && _ && _); auto.
Qed.

(** ** Squaring *)

Lemma int_pow_2 n : int_pow n 2 = (n * n)%Z.
Proof. unfold int_pow. change (Z.of_N 2) with 2%Z. apply Z.pow_2_r. Qed.

(** ** Every invocation ends in one of the five ways of [session] *)

Ltac script_cbn :=
  cbn -[strip_newline chomp prompt_event greet py int int_pow format_int
        decimal readline].

Lemma run_session inp : session inp (fst (run inp)) (snd (run inp)).
Proof.
  unfold run, main, input, square_message, print, bind, emit,
    sys_stdin_readline, lift, ret, raise; script_cbn.
  destruct (readline inp) as [l1 r1] eqn:E1.
  destruct l1 as [|c1 l1]; script_cbn.
  { apply readline_empty in E1 as [-> ->]. now constructor. }
  destruct (readline r1) as [l2 r2] eqn:E2.
  destruct l2 as [|c2 l2]; script_cbn.
  { apply readline_empty in E2 as [-> ->].
    apply (eof_at_number inp (c1 :: l1)); [assumption|discriminate]. }
  destruct (int (chomp terminal (c2 :: l2))) as [n|e] eqn:En; script_cbn.
  - rewrite int_pow_2.
    destruct (format_int_cases n) as [Fn|Fn]; rewrite Fn; script_cbn.
    + destruct (format_int_cases (n * n)) as [Fr|Fr]; rewrite Fr; script_cbn.
      * eapply completed; eauto; discriminate.
      * eapply too_long_to_print; eauto; discriminate.
    + eapply too_long_to_print; eauto; discriminate.
  - pose proof (int_raises _ _ En); subst e.
    eapply bad_number; eauto; discriminate.
Qed.

(** The same, as an equation on the two lines read. *)
Lemma run_lines inp l1 r1 l2 r2 :
  readline inp = (l1, r1) -> l1 <> [] ->
  readline r1 = (l2, r2) -> l2 <> [] ->
  run inp =
    match int (chomp terminal l2) with
    | Raise e => (Raise e, mkWorld r2 (greeted l1 ++ asked l2))
    | Normal n =>
        match format_int n, format_int (n * n) with
        | Normal a, Normal b =>
            (Normal tt,
             mkWorld r2 (greeted l1 ++ asked l2 ++
                         [Print (py "The square of " ++ a ++ py " is " ++ b)]))
        | Raise e, _ | _, Raise e =>
            (Raise e, mkWorld r2 (greeted l1 ++ asked l2))
        end
    end.
Proof.
  intros E1 H1 E2 H2.
  unfold run, main, input, square_message, print, bind, emit,
    sys_stdin_readline, lift, ret, raise; script_cbn.
  rewrite E1. destruct l1 as [|c1 l1]; [congruence|]. script_cbn.
  rewrite E2. destruct l2 as [|c2 l2]; [congruence|]. script_cbn.
  destruct (int (chomp terminal (c2 :: l2))) as [n|e]; script_cbn;
    [|reflexivity].
  rewrite int_pow_2.
  destruct (format_int n); script_cbn; [|reflexivity].
  destruct (format_int (n * n)); reflexivity.
Qed.

Lemma run_eof_at_name :
  run [] =
    (Raise EOFError, mkWorld [] [prompt_event terminal name_prompt; Read []]).
Proof. reflexivity. Qed.

Lemma run_eof_at_number inp l1 :
  readline inp = (l1, []) -> l1 <> [] ->
  run inp = (Raise EOFError, mkWorld [] (greeted l1 ++ asked [])).
Proof.
  intros E1 H1.
  unfold run, main, input, square_message, print, bind, emit,
    sys_stdin_readline, lift, ret, raise; script_cbn.
  rewrite E1. destruct l1 as [|c1 l1]; [congruence|]. reflexivity.
Qed.

(** What a completed invocation looks like. *)
Lemma run_completed inp w :
  run inp = (Normal tt, w) ->
  exists l1 r1 l2 n,
    readline inp = (l1, r1) /\ l1 <> [] /\
    readline r1 = (l2, stdin w) /\ l2 <> [] /\
    int (chomp terminal l2) = Normal n /\
    format_int n = Normal (decimal n) /\
    format_int (n * n) = Normal (decimal (n * n)) /\
    events w = greeted l1 ++ asked l2 ++ [Print (square_line n (n * n))].
Proof.
  intros R. pose proof (run_session inp) as S. rewrite R in S.
  cbn [fst snd] in S. inversion S; subst.
  exists l1, r1, l2, n. cbn [stdin events]. tauto.
Qed.

(** ** The decimal text is in standard form *)

Lemma decimal_canonical n : canonical_decimal (decimal n) = true.
Proof.
  unfold decimal.
  pose proof (digits_of_small (Z.abs_N n)) as Hs.
  pose proof (digit_chars_are_digits _ Hs) as Hd.
  destruct (N.eq_dec (Z.abs_N n) 0) as [Z0|NZ].
  - assert (n = 0%Z) by lia. subst n. reflexivity.
  - destruct (digits_of_head _ NZ) as (d & ds & E & Hd0).
    rewrite E in *. inversion Hs; subst.
    assert (F : N.eqb (digit_char d) 48 = false)
      by (unfold digit_char; Ncases).
    destruct (Z.ltb n 0).
    + cbn [map canonical_decimal]. change (N.eqb MINUS MINUS) with true.
      cbv iota. rewrite F. exact Hd.
    + cbn [map canonical_decimal] in *.
      destruct (map digit_char ds) eqn:M.
      * cbn [forallb] in Hd. now rewrite andb_true_r in Hd.
      * destruct (digit_is_plain (digit_char d)) as (_ & _ & -> & _);
          [apply is_digit_char; assumption|].
        rewrite F. exact Hd.
Qed.

Lemma decimal_no_newline n : ~ In NEWLINE (decimal n).
Proof.
  assert (A : forall ds, ~ In NEWLINE (map digit_char ds)).
  { intros ds H. apply in_map_iff in H as (d & H & _).
    unfold digit_char, NEWLINE in H. lia. }
  unfold decimal. destruct (Z.ltb n 0); [|apply A].
  intros [H|H]; [discriminate|]. exact (A _ H).
Qed.

Lemma decimal_no_cr n : ~ In CR (decimal n).
Proof.
  assert (A : forall ds, ~ In CR (map digit_char ds)).
  { intros ds H. apply in_map_iff in H as (d & H & _).
    unfold digit_char, CR in H. lia. }
  unfold decimal. destruct (Z.ltb n 0); [|apply A].
  intros [H|H]; [discriminate|]. exact (A _ H).
Qed.

Lemma decimal_not_empty n : decimal n <> [].
Proof.
  unfold decimal. destruct (digits_of_cons (Z.abs_N n)) as (d & ds & ->).
  destruct (Z.ltb n 0); discriminate.
Qed.

(** A conversion that [format_int] accepts, [int] accepts back. *)
Lemma format_int_accepts n :
  format_int n = Normal (decimal n) ->
  exceeds_limit int_max_str_digits (ndigits n) = false.
Proof.
  unfold format_int, exceeds_limit.
  assert (L : (length (decimal n) - (if Z.ltb n 0 then 1 else 0))%nat
              = ndigits n).
  { unfold decimal, ndigits. destruct (Z.ltb n 0); cbn [length];
      rewrite length_map; lia. }
  rewrite L.
  destruct (Nat.ltb_spec MAX_STR_DIGITS_THRESHOLD (ndigits n)) as [G|G];
    [|reflexivity].
  destruct (Nat.ltb_spec MAX_STR_DIGITS_THRESHOLD (length (decimal n)));
    [|lia].
  cbn [andb]. destruct (_ && _); [discriminate|reflexivity].
Qed.

(** ** The machine is strict

    It refuses a second prompt or read within a phase, a line printed
    without its prompt and read, and any event after [Done]. *)
Lemma machine_is_strict :
  machine AwaitingName [Prompt []; Read []; Prompt []; Read []; Print []] = None
  /\ machine AwaitingName [Read []; Read []; Print []] = None
  /\ machine AwaitingName [Print []] = None
  /\ machine AwaitingName
       [Prompt []; Read []; Print []; Prompt []; Read []; Print []; Prompt []]
     = None
  /\ machine Done [Prompt []; Read []; Print []] = None.
Proof. repeat split. Qed.

(** ** Runs on two given lines *)

Lemma strip_prefix_app p s : strip_prefix p (p ++ s) = Some s.
Proof.
  induction p as [|c p IH]; [reflexivity|]. cbn [app strip_prefix].
  now rewrite N.eqb_refl.
Qed.

(** The first read of a sequence that starts with a prompt. *)
Lemma first_read t p l tl before l1 rest :
  prompt_event t p :: Read l :: tl = before ++ Read l1 :: rest ->
  reads before = [] ->
  l = l1 /\ tl = rest.
Proof.
  intros E Hb. destruct before as [|e before]; cbn [app] in E.
  - destruct t; discriminate.
  - injection E as He E. subst e.
    destruct before as [|e' before]; cbn [app] in E.
    + injection E as -> ->. auto.
    + injection E as He _. subst e'. rewrite reads_prompt in Hb.
      discriminate.
Qed.

Lemma run_of_lines name l2 n :
  ~ In NEWLINE name -> ~ In CR name ->
  ~ In NEWLINE l2 -> ~ In CR l2 ->
  int l2 = Normal n ->
  format_int n = Normal (decimal n) ->
  format_int (n * n) = Normal (decimal (n * n)) ->
  fst (run (name ++ NEWLINE :: l2 ++ [NEWLINE])) = Normal tt
  /\ printed (events (snd (run (name ++ NEWLINE :: l2 ++ [NEWLINE])))) =
       [greet name; square_line n (n * n)].
Proof.
  intros N1 C1 N2 C2 I F1 F2.
  rewrite (run_lines _ (name ++ [NEWLINE]) (l2 ++ [NEWLINE])
             (l2 ++ [NEWLINE]) []).
  - rewrite (chomp_line l2 C2), I, F1, F2. cbn [fst snd events]. events_simpl.
    rewrite (chomp_line name C1). split; reflexivity.
  - apply readline_line; assumption.
  - destruct name; discriminate.
  - apply (readline_line l2 []); assumption.
  - destruct l2; discriminate.
Qed.

(** Standard output by mode, after one line and after two. *)
Lemma stdout_one_line (t : bool) (p1 p2 g : str) :
  (if t then [] else p1) ++ g ++ [NEWLINE] ++ (if t then [] else p2) ++ [] =
    if t then g ++ [NEWLINE] else p1 ++ g ++ [NEWLINE] ++ p2.
Proof. destruct t; cbn [app]; now rewrite ?app_nil_r. Qed.

Lemma stdout_two_lines (t : bool) (p1 p2 g q : str) :
  (if t then [] else p1) ++ g ++ [NEWLINE] ++ (if t then [] else p2) ++
    q ++ [NEWLINE] ++ [] =
    if t then g ++ [NEWLINE] ++ q ++ [NEWLINE]
    else p1 ++ g ++ [NEWLINE] ++ p2 ++ q ++ [NEWLINE].
Proof. destruct t; reflexivity. Qed.

Ltac run_of_lines_at name l2 n :=
  let A := fresh in
  let B := fresh in
  destruct (run_of_lines name l2 n) as [A B];
  [ first [reflexivity | cbv; intuition discriminate] ..
  | first [exact A | exact B | exact (f_equal (fun l => last l []) B)] ].

(** * The claims *)

(** C1.  For every string [s], [greet s] is exactly "Hello, " followed by
    [s] followed by "! Welcome to the improved code.": the word Hello, a
    comma (44), a blank (32), [s] unchanged, an exclamation mark (33), the
    rest of the sentence and a final period (46). *)
Theorem greet_exact (s : str) :
  greet s = py "Hello, " ++ s ++ py "! Welcome to the improved code."
  /\ greet s =
       py "Hello" ++ [44; 32]%N ++ s ++ [33]%N ++
       py " Welcome to the improved code" ++ [46]%N.
Proof. split; reflexivity. Qed.

(** C2.  The script's [number ** 2] is [number * number] for every
    integer, and in every invocation that completes the number parsed
    from the second line read and the result printed with it are [n] and
    [n * n]. *)
Theorem square_is_product :
  (forall n : Z, int_pow n 2 = (n * n)%Z)
  /\ forall inp w,
       run inp = (Normal tt, w) ->
       exists l1 l2 n,
         reads (events w) = [l1; l2]
         /\ int (chomp terminal l2) = Normal n
         /\ last (printed (events w)) [] = square_line n (int_pow n 2)
         /\ int_pow n 2 = (n * n)%Z.
Proof.
  split; [exact int_pow_2|].
  intros inp w R.
  destruct (run_completed _ _ R) as (l1 & r1 & l2 & n & _ & _ & _ & _ & I & _ & _ & E).
  exists l1, l2, n. rewrite E, int_pow_2. events_simpl.
  repeat split; assumption.
Qed.


(** C8.  [int] accepts more than plain digit strings: " 42 " (blanks
    around the numeral), "+7" (an explicit sign) and "1_000" (an
    underscore between digits) are not plain numerals, yet parse to 42, 7
    and 1000 without a [ValueError], and a session given one of them
    completes. *)
Theorem int_is_lenient :
  (plain_numeral (py " 42 ") = false /\ int (py " 42 ") = Normal 42%Z)
  /\ (plain_numeral (py "+7") = false /\ int (py "+7") = Normal 7%Z)
  /\ (plain_numeral (py "1_000") = false /\ int (py "1_000") = Normal 1000%Z)
  /\ fst (run (py "Ada" ++ [NEWLINE] ++ py " 42 " ++ [NEWLINE])) = Normal tt.
Proof.
  repeat split.
  run_of_lines_at (py "Ada") (py " 42 ") 42%Z.
Qed.


(** C4 (amended).  In every invocation that completes, exactly two lines
    are printed, in this order: the greeting for the name read, then
    "The square of [n] is [n * n]" for the number parsed; on the input
    lines "Ada" and "4" they are "Hello, Ada! Welcome to the improved
    code." and "The square of 4 is 16".  When the streams are terminals
    the prompts go to standard error and standard output is these two
    newline-terminated lines and nothing else; otherwise each line is
    preceded on standard output by the prompt that [input] wrote before
    reading. *)
Theorem two_lines_after_prompts :
  printed (events (snd (run (py "Ada" ++ [NEWLINE] ++ py "4" ++ [NEWLINE])))) =
    [py "Hello, Ada! Welcome to the improved code.";
     py "The square of 4 is 16"]
  /\ forall inp w,
       run inp = (Normal tt, w) ->
       exists l1 l2 n,
         reads (events w) = [l1; l2]
         /\ int (chomp terminal l2) = Normal n
         /\ printed (events w) =
              [greet (chomp terminal l1); square_line n (n * n)]
         /\ stdout_text (events w) =
              if terminal
              then greet (chomp terminal l1) ++ [NEWLINE] ++
                   square_line n (n * n) ++ [NEWLINE]
              else name_prompt ++ greet (chomp terminal l1) ++ [NEWLINE] ++
                   number_prompt ++ square_line n (n * n) ++ [NEWLINE].
Proof.
  split; [run_of_lines_at (py "Ada") (py "4") 4%Z|].
  intros inp w R.
  destruct (run_completed _ _ R)
    as (l1 & r1 & l2 & n & _ & _ & _ & _ & I & _ & _ & E).
  exists l1, l2, n. rewrite E. events_simpl.
  repeat split; [assumption|]. apply stdout_two_lines.
Qed.


(** C7.  Every invocation is a run of the state machine from
    [AwaitingName]: its events are the beginning of the fixed sequence
    prompt, read the name, print the greeting, prompt, read the number,
    print the square.  So there are at most two reads, the name's first,
    the number is read only after the greeting was printed, nothing is
    repeated, and [Done] is reached, once, exactly when the invocation
    completes. *)
Theorem sequential_session inp :
  exists ph,
    machine AwaitingName (events (snd (run inp))) = Some ph
    /\ (ph = Done <-> fst (run inp) = Normal tt)
    /\ (length (reads (events (snd (run inp)))) <= 2)%nat
    /\ (length (printed (events (snd (run inp)))) <= 2)%nat
    /\ exists l1 l2 m rest,
         events (snd (run inp)) ++ rest =
           [prompt_event terminal name_prompt; Read l1;
            Print (greet (chomp terminal l1));
            prompt_event terminal number_prompt; Read l2; Print m].
Proof.
  pose proof (run_session inp) as S.
  destruct (run inp) as [r w]. cbn [fst snd] in *.
  inversion S; subst; cbn [events].
  - exists AwaitingName.
    split; [cbn [machine]; now rewrite is_prompt_event|].
    events_simpl. repeat split; try discriminate; try lia.
    exists [], [], [], [Print (greet (chomp terminal []));
                        prompt_event terminal number_prompt; Read []; Print []].
    reflexivity.
  - exists AwaitingNumber.
    split; [unfold greeted, asked; cbn [app machine];
            now rewrite !is_prompt_event|].
    events_simpl. repeat split; try discriminate; try lia.
    exists l1, [], [], [Print []]. reflexivity.
  - exists AwaitingNumber.
    split; [unfold greeted, asked; cbn [app machine];
            now rewrite !is_prompt_event|].
    events_simpl. repeat split; try discriminate; try lia.
    exists l1, l2, [], [Print []]. reflexivity.
  - exists AwaitingNumber.
    split; [unfold greeted, asked; cbn [app machine];
            now rewrite !is_prompt_event|].
    events_simpl. repeat split; try discriminate; try lia.
    exists l1, l2, [], [Print []]. reflexivity.
  - exists Done.
    split; [unfold greeted, asked; cbn [app machine];
            now rewrite !is_prompt_event|].
    events_simpl. repeat split; try lia.
    exists l1, l2, (square_line n (n * n)), []. reflexivity.
Qed.


Lemma within_limit_square n : within_limit (n * n) -> within_limit n.
Proof.
  unfold within_limit, ndigits. intros [H|H]; [now left|right].
  etransitivity; [apply digits_of_length_le|exact H].
  rewrite Zabs2N.inj_mul.
  destruct (Z.abs_N n); [reflexivity|]. nia.
Qed.


(** * Further properties of the script *)

(** ** Lines *)

Lemma readline_parts s : fst (readline s) ++ snd (readline s) = s.
Proof.
  induction s as [|c s IH]; [reflexivity|]. cbn [readline].
  destruct (N.eqb_spec c NEWLINE) as [->|_]; [reflexivity|].
  destruct (readline s) as [l r]. cbn [fst snd] in *.
  cbn [app]. now rewrite IH.
Qed.

Lemma readline_last l : ~ In NEWLINE l -> readline l = (l, []).
Proof.
  induction l as [|c l IH]; intros H; [reflexivity|]. cbn [readline].
  destruct (N.eqb_spec c NEWLINE) as [->|_]; [elim H; now left|].
  rewrite IH; [reflexivity|]. intros I. apply H. now right.
Qed.

Lemma strip_newline_none l : ~ In NEWLINE l -> strip_newline l = l.
Proof.
  induction l as [|c l IH]; intros H; [reflexivity|]. cbn [strip_newline].
  destruct l as [|d l].
  - destruct (N.eqb_spec c NEWLINE) as [->|_]; [elim H; now left|reflexivity].
  - rewrite IH; [reflexivity|]. intros I. apply H. now right.
Qed.

(** What [input] returns never contains a newline. *)
Lemma line_has_no_newline s : ~ In NEWLINE (strip_newline (fst (readline s))).
Proof.
  induction s as [|c s IH]; [intros []|]. cbn [readline].
  destruct (N.eqb_spec c NEWLINE) as [->|Hc]; [intros []|].
  destruct (readline s) as [l r]. cbn [fst] in *. cbn [strip_newline].
  destruct l as [|d l].
  - destruct (N.eqb_spec c NEWLINE); [intros []|].
    intros [E|[]]. congruence.
  - intros [E|I]; [congruence|]. exact (IH I).
Qed.

Lemma removelast_line s : ~ In NEWLINE (removelast (fst (readline s))).
Proof.
  induction s as [|c s IH]; [intros []|]. cbn [readline].
  destruct (N.eqb_spec c NEWLINE) as [->|Hc]; [intros []|].
  destruct (readline s) as [l r]. cbn [fst] in *.
  destruct l as [|d l]; [intros []|].
  change (removelast (c :: d :: l)) with (c :: removelast (d :: l)).
  intros [E|I]; [congruence|]. exact (IH I).
Qed.

Lemma in_removelast (x : char) l : In x (removelast l) -> In x l.
Proof.
  induction l as [|c l IH]; [intros []|].
  destruct l as [|d l]; [intros []|].
  change (removelast (c :: d :: l)) with (c :: removelast (d :: l)).
  intros [E|I]; [now left|right; exact (IH I)].
Qed.

Lemma text_has_no_newline s : ~ In NEWLINE (chomp terminal (fst (readline s))).
Proof.
  unfold chomp. destruct terminal; [|apply line_has_no_newline].
  unfold tty_strip. pose proof (removelast_line s) as R.
  destruct (rev (removelast (fst (readline s)))) as [|c r]; [exact R|].
  destruct (N.eqb c CR); [|exact R].
  intros I. apply R. apply in_removelast. exact I.
Qed.

Lemma greet_no_newline name : ~ In NEWLINE name -> ~ In NEWLINE (greet name).
Proof.
  intros H I. unfold greet in I.
  apply in_app_iff in I as [I|I]; [|apply in_app_iff in I as [I|I]];
    [|contradiction|]; cbv in I; intuition discriminate.
Qed.

(** The script on an input with two full lines, and on an input whose
    second line is the last and has no newline. *)
Lemma run_two_lines name l2 rest :
  ~ In NEWLINE name -> ~ In NEWLINE l2 ->
  run (name ++ NEWLINE :: l2 ++ NEWLINE :: rest) =
    match int (chomp terminal (l2 ++ [NEWLINE])) with
    | Raise e =>
        (Raise e, mkWorld rest (greeted (name ++ [NEWLINE]) ++
                                asked (l2 ++ [NEWLINE])))
    | Normal n =>
        match format_int n, format_int (n * n) with
        | Normal a, Normal b =>
            (Normal tt,
             mkWorld rest (greeted (name ++ [NEWLINE]) ++
                           asked (l2 ++ [NEWLINE]) ++
                           [Print (py "The square of " ++ a ++ py " is " ++ b)]))
        | Raise e, _ | _, Raise e =>
            (Raise e, mkWorld rest (greeted (name ++ [NEWLINE]) ++
                                    asked (l2 ++ [NEWLINE])))
        end
    end.
Proof.
  intros Hn Hl.
  rewrite (run_lines _ (name ++ [NEWLINE]) (l2 ++ NEWLINE :: rest)
             (l2 ++ [NEWLINE]) rest).
  - reflexivity.
  - apply readline_line; assumption.
  - destruct name; discriminate.
  - apply readline_line; assumption.
  - destruct l2; discriminate.
Qed.

Lemma run_unterminated name l2 :
  ~ In NEWLINE name -> ~ In NEWLINE l2 -> l2 <> [] ->
  run (name ++ NEWLINE :: l2) =
    match int (chomp terminal l2) with
    | Raise e =>
        (Raise e, mkWorld [] (greeted (name ++ [NEWLINE]) ++ asked l2))
    | Normal n =>
        match format_int n, format_int (n * n) with
        | Normal a, Normal b =>
            (Normal tt,
             mkWorld [] (greeted (name ++ [NEWLINE]) ++ asked l2 ++
                         [Print (py "The square of " ++ a ++ py " is " ++ b)]))
        | Raise e, _ | _, Raise e =>
            (Raise e, mkWorld [] (greeted (name ++ [NEWLINE]) ++ asked l2))
        end
    end.
Proof.
  intros Hn Hl Hne.
  rewrite (run_lines _ (name ++ [NEWLINE]) l2 l2 []).
  - reflexivity.
  - apply readline_line; assumption.
  - destruct name; discriminate.
  - apply readline_last; assumption.
  - assumption.
Qed.

(** ** What the script reads and prints *)

(** X1.  [greet] is injective: two names with the same greeting are the
    same name. *)
Theorem greet_injective a b : greet a = greet b -> a = b.
Proof.
  unfold greet. intros H.
  apply app_inv_head in H. apply app_inv_tail in H. exact H.
Qed.




Lemma int_blank ws : forallb Py_ISSPACE ws = true -> int ws = Raise ValueError.
Proof.
  intros B.
  assert (A : PyUnicode_IS_ASCII ws = true /\ skip_spaces ws = []).
  { induction ws as [|c ws IH]; [split; reflexivity|].
    cbn [forallb] in B. apply andb_true_iff in B as [Bc B].
    destruct (IH B) as [IA IS]. cbn [PyUnicode_IS_ASCII forallb skip_spaces].
    rewrite Bc. split; [|assumption].
    fold (PyUnicode_IS_ASCII ws). rewrite IA, andb_true_r.
    unfold Py_ISSPACE in Bc. apply N.ltb_lt.
    apply orb_true_iff in Bc as [Bc|Bc].
    - apply andb_true_iff in Bc as [_ Bc]. apply N.leb_le in Bc. lia.
    - apply N.eqb_eq in Bc. lia. }
  destruct A as [IA IS].
  unfold int, TransformDecimalAndSpaceToASCII, PyLong_FromString.
  rewrite IA, IS. reflexivity.
Qed.

Lemma blank_removelast ws :
  forallb Py_ISSPACE ws = true -> forallb Py_ISSPACE (removelast ws) = true.
Proof.
  induction ws as [|c ws IH]; [reflexivity|]. intros B.
  cbn [forallb] in B. apply andb_true_iff in B as [Bc B].
  destruct ws as [|d ws]; [reflexivity|].
  change (removelast (c :: d :: ws)) with (c :: removelast (d :: ws)).
  cbn [forallb]. rewrite Bc. exact (IH B).
Qed.

Lemma blank_chomp ws :
  forallb Py_ISSPACE ws = true ->
  forallb Py_ISSPACE (chomp terminal (ws ++ [NEWLINE])) = true.
Proof.
  intros B. unfold chomp. destruct terminal;
    [|now rewrite strip_newline_line].
  unfold tty_strip. rewrite removelast_last.
  destruct (rev ws) as [|c r]; [assumption|].
  destruct (N.eqb c CR); [apply blank_removelast|]; assumption.
Qed.


(** X6.  When the streams are not terminals, the newline after the number
    is optional: an input that ends right after the number gives the same
    outcome, the same printed lines and the same text on standard output
    as the input with that newline. *)
Theorem final_newline_is_optional name l2 :
  terminal = false ->
  ~ In NEWLINE name -> ~ In NEWLINE l2 -> l2 <> [] ->
  fst (run (name ++ NEWLINE :: l2)) =
    fst (run (name ++ NEWLINE :: l2 ++ [NEWLINE]))
  /\ printed (events (snd (run (name ++ NEWLINE :: l2)))) =
       printed (events (snd (run (name ++ NEWLINE :: l2 ++ [NEWLINE]))))
  /\ stdout_text (events (snd (run (name ++ NEWLINE :: l2)))) =
       stdout_text (events (snd (run (name ++ NEWLINE :: l2 ++ [NEWLINE])))).
Proof.
  intros T Hn Hl Hne.
  rewrite (run_unterminated name l2 Hn Hl Hne), (run_two_lines name l2 [] Hn Hl).
  assert (C : chomp terminal (l2 ++ [NEWLINE]) = chomp terminal l2).
  { unfold chomp. rewrite T, strip_newline_line, (strip_newline_none _ Hl).
    reflexivity. }
  rewrite C.
  destruct (int (chomp terminal l2)) as [n|e];
    [|cbn [fst snd events]; events_simpl; repeat split].
  destruct (format_int n);
    [|cbn [fst snd events]; events_simpl; repeat split].
  destruct (format_int (n * n));
    cbn [fst snd events]; events_simpl; repeat split.
Qed.

(** ** What [int] accepts *)

Lemma space_is_low c : Py_ISSPACE c = true -> (c <= 32)%N.
Proof.
  unfold Py_ISSPACE. intros H. apply orb_true_iff in H as [H|H].
  - apply andb_true_iff in H as [_ H]. apply N.leb_le in H. lia.
  - apply N.eqb_eq in H. lia.
Qed.

Lemma spaces_are_ascii ws :
  forallb Py_ISSPACE ws = true -> PyUnicode_IS_ASCII ws = true.
Proof.
  unfold PyUnicode_IS_ASCII. induction ws as [|c ws IH]; [reflexivity|].
  cbn [forallb]. intros H. apply andb_true_iff in H as [Hc H].
  rewrite (IH H), andb_true_r. apply space_is_low in Hc.
  apply N.ltb_lt. lia.
Qed.

Lemma skip_spaces_lead ws t :
  forallb Py_ISSPACE ws = true -> skip_spaces (ws ++ t) = skip_spaces t.
Proof.
  induction ws as [|c ws IH]; [reflexivity|]. cbn [forallb app skip_spaces].
  intros H. apply andb_true_iff in H as [-> H]. auto.
Qed.

Lemma skip_spaces_trail ws t :
  forallb Py_ISSPACE ws = true ->
  skip_spaces (t ++ ws) =
    match skip_spaces t with [] => [] | _ => skip_spaces t ++ ws end.
Proof.
  intros H. induction t as [|c t IH].
  - cbn [app skip_spaces]. rewrite <- (app_nil_r ws) at 1.
    rewrite skip_spaces_lead by assumption. reflexivity.
  - cbn [app skip_spaces]. destruct (Py_ISSPACE c); [exact IH|reflexivity].
Qed.

Lemma scan_trail ws : forallb Py_ISSPACE ws = true ->
  forall s prev,
    scan prev (s ++ ws) =
      match scan prev s with
      | Some (pv, ds, e) => Some (pv, ds, e ++ ws)
      | None => None
      end.
Proof.
  intros H. induction s as [|c s IH]; intros prev.
  - cbn [app scan]. destruct ws as [|c ws]; [reflexivity|].
    cbn [forallb] in H. apply andb_true_iff in H as [Hc _].
    apply space_is_low in Hc. cbn [scan]. unfold digit_value, UNDERSCORE.
    Ncases.
  - cbn [app scan]. destruct (digit_value c).
    + rewrite IH. destruct (scan c s) as [[[pv ds] e]|]; reflexivity.
    + destruct (N.eqb c UNDERSCORE); [|reflexivity].
      destruct (N.eqb prev UNDERSCORE); [reflexivity|apply IH].
Qed.

Lemma long_from_string_base_trail ws u :
  forallb Py_ISSPACE ws = true ->
  long_from_string_base (u ++ ws) = long_from_string_base u.
Proof.
  intros H. unfold long_from_string_base. destruct u as [|c u].
  - cbn [app]. destruct ws as [|c ws]; [reflexivity|].
    cbn [forallb] in H. apply andb_true_iff in H as [Hc _].
    apply space_is_low in Hc.
    destruct (N.eqb c UNDERSCORE) eqn:U; [reflexivity|].
    assert (D : digit_value c = None) by (unfold digit_value; Ncases).
    cbn [scan]. rewrite D, U.
    change (N.eqb 0 UNDERSCORE) with false. cbv iota.
    rewrite Nat.eqb_refl. reflexivity.
  - cbn [app]. destruct (N.eqb c UNDERSCORE); [reflexivity|].
    change (c :: u ++ ws) with ((c :: u) ++ ws). rewrite (scan_trail _ H).
    destruct (scan 0%N (c :: u)) as [[[pv ds] e]|]; [|reflexivity].
    destruct (N.eqb pv UNDERSCORE); [reflexivity|].
    rewrite !length_app.
    replace (Nat.eqb (length e + length ws) (length (c :: u) + length ws))
      with (Nat.eqb (length e) (length (c :: u))).
    2:{ destruct (Nat.eqb_spec (length e) (length (c :: u)));
        destruct (Nat.eqb_spec (length e + length ws)
                    (length (c :: u) + length ws)); try reflexivity; lia. }
    destruct (Nat.eqb _ _); [reflexivity|].
    rewrite (skip_spaces_trail _ _ H).
    destruct (skip_spaces e); reflexivity.
Qed.

Lemma PyLong_FromString_spaces ws1 t ws2 :
  forallb Py_ISSPACE ws1 = true -> forallb Py_ISSPACE ws2 = true ->
  PyLong_FromString (ws1 ++ t ++ ws2) = PyLong_FromString t.
Proof.
  intros H1 H2. unfold PyLong_FromString.
  rewrite (skip_spaces_lead _ _ H1), (skip_spaces_trail _ _ H2).
  destruct (skip_spaces t) as [|c r]; [reflexivity|]. cbn [app].
  destruct (N.eqb c PLUS);
    [rewrite (long_from_string_base_trail _ _ H2); reflexivity|].
  destruct (N.eqb c MINUS);
    [rewrite (long_from_string_base_trail _ _ H2); reflexivity|].
  change (c :: r ++ ws2) with ((c :: r) ++ ws2).
  rewrite (long_from_string_base_trail _ _ H2). reflexivity.
Qed.

Lemma transform_loop_lead ws t :
  forallb Py_ISSPACE ws = true ->
  transform_loop (ws ++ t) = ws ++ transform_loop t.
Proof.
  induction ws as [|c ws IH]; [reflexivity|]. cbn [forallb app transform_loop].
  intros H. apply andb_true_iff in H as [Hc H]. apply space_is_low in Hc.
  rewrite (IH H). destruct (N.ltb_spec c 127); [reflexivity|lia].
Qed.

Lemma transform_loop_trail ws s :
  forallb Py_ISSPACE ws = true ->
  transform_loop (s ++ ws) = transform_loop s ++ ws
  \/ transform_loop (s ++ ws) = transform_loop s.
Proof.
  intros H. induction s as [|c s IH].
  - left. cbn [app transform_loop]. rewrite <- (app_nil_r ws) at 1.
    rewrite (transform_loop_lead _ _ H). cbn [transform_loop].
    apply app_nil_r.
  - cbn [app transform_loop].
    destruct (N.ltb c 127); [destruct IH as [->| ->]; auto|].
    destruct (Py_UNICODE_ISSPACE c); [destruct IH as [->| ->]; auto|].
    destruct (Py_UNICODE_TODECIMAL c); [destruct IH as [->| ->]; auto|].
    now right.
Qed.

(** X8.  [int] ignores white space around the text: for every text, blanks,
    tabs and the like before and after it change neither the value nor
    the refusal. *)
Theorem int_ignores_surrounding_space ws1 s ws2 :
  forallb Py_ISSPACE ws1 = true -> forallb Py_ISSPACE ws2 = true ->
  int (ws1 ++ s ++ ws2) = int s.
Proof.
  intros H1 H2. unfold int, TransformDecimalAndSpaceToASCII.
  assert (A : PyUnicode_IS_ASCII (ws1 ++ s ++ ws2) = PyUnicode_IS_ASCII s).
  { pose proof (spaces_are_ascii _ H1) as A1.
    pose proof (spaces_are_ascii _ H2) as A2.
    unfold PyUnicode_IS_ASCII, str, char in *.
    rewrite !forallb_app, A1, A2, andb_true_r. reflexivity. }
  rewrite A. destruct (PyUnicode_IS_ASCII s).
  - apply PyLong_FromString_spaces; assumption.
  - rewrite (transform_loop_lead _ _ H1).
    destruct (transform_loop_trail ws2 s H2) as [-> | ->].
    + apply PyLong_FromString_spaces; assumption.
    + rewrite <- (app_nil_r (transform_loop s)) at 1.
      apply PyLong_FromString_spaces; [assumption|reflexivity].
Qed.

Lemma plain_as_digits s :
  plain_numeral s = true ->
  s <> []
  /\ map digit_char (map (fun c => c - 48)%N s) = s
  /\ Forall (fun d => d < 10)%N (map (fun c => c - 48)%N s).
Proof.
  intros P. split; [destruct s; [discriminate|discriminate]|].
  assert (F : forallb is_digit s = true) by (destruct s; [discriminate|exact P]).
  clear P. induction s as [|c s IH]; [split; constructor|].
  cbn [forallb] in F. apply andb_true_iff in F as [Hc F].
  apply is_digit_range in Hc. destruct (IH F) as [IH1 IH2].
  cbn [map]. split.
  - rewrite IH1. unfold digit_char. f_equal. lia.
  - constructor; [lia|assumption].
Qed.

Lemma digit_chars_ascii ds :
  Forall (fun d => d < 10)%N ds ->
  forallb (fun c => N.ltb c 128) (map digit_char ds) = true.
Proof.
  induction 1 as [|d ds Hd _ IH]; simpl; [reflexivity|].
  rewrite IH. unfold digit_char. Ncases.
Qed.

Lemma PyLong_digit_chars ds :
  ds <> [] -> Forall (fun d => d < 10)%N ds ->
  PyLong_FromString (map digit_char ds) =
    (if exceeds_limit int_max_str_digits (length ds) then Raise ValueError
     else Normal (Z.of_N (digits_value ds)))
  /\ PyLong_FromString (PLUS :: map digit_char ds) =
       (if exceeds_limit int_max_str_digits (length ds) then Raise ValueError
        else Normal (Z.of_N (digits_value ds)))
  /\ PyLong_FromString (MINUS :: map digit_char ds) =
       (if exceeds_limit int_max_str_digits (length ds) then Raise ValueError
        else Normal (- Z.of_N (digits_value ds))%Z).
Proof.
  intros Hne Hs. pose proof (long_from_digit_chars _ Hne Hs) as L.
  unfold PyLong_FromString. repeat split.
  - destruct ds as [|d ds]; [congruence|]. inversion Hs; subst.
    destruct (digit_is_plain (digit_char d)) as (W & P & M & _ & _);
      [apply is_digit_char; assumption|].
    cbn [map skip_spaces] in *. rewrite W, P, M, L.
    destruct (exceeds_limit _ _); [reflexivity|]. f_equal. lia.
  - cbn [skip_spaces]. change (Py_ISSPACE PLUS) with false. cbv iota.
    change (N.eqb PLUS PLUS) with true. cbv iota. rewrite L.
    destruct (exceeds_limit _ _); [reflexivity|]. f_equal. lia.
  - cbn [skip_spaces]. change (Py_ISSPACE MINUS) with false. cbv iota.
    change (N.eqb MINUS PLUS) with false.
    change (N.eqb MINUS MINUS) with true. cbv iota. rewrite L.
    destruct (exceeds_limit _ _); [reflexivity|]. f_equal; lia.
Qed.

(** X9.  A plain numeral, alone or after one sign, is parsed to the number
    its digits denote (leading zeros included, negated after a minus),
    unless it has more digits than the limit allows, in which case [int]
    raises [ValueError]. *)
Theorem int_of_signed_numeral s :
  plain_numeral s = true ->
  int s =
    (if exceeds_limit int_max_str_digits (length s) then Raise ValueError
     else Normal (Z.of_N (digits_value (map (fun c => c - 48)%N s))))
  /\ int (PLUS :: s) = int s
  /\ int (MINUS :: s) =
       match int s with
       | Normal v => Normal (- v)%Z
       | Raise e => Raise e
       end.
Proof.
  intros P. destruct (plain_as_digits s P) as (Hne & E & Hs).
  set (ds := map (fun c => (c - 48)%N) s) in *.
  assert (Hd : ds <> []) by (destruct s; [congruence|discriminate]).
  assert (Len : length s = length ds) by (unfold ds; now rewrite length_map).
  pose proof (digit_chars_ascii _ Hs) as A. rewrite E in A.
  destruct (PyLong_digit_chars ds Hd Hs) as (L0 & L1 & L2).
  rewrite E in L0, L1, L2.
  assert (I0 : int s = PyLong_FromString s).
  { unfold int, TransformDecimalAndSpaceToASCII, PyUnicode_IS_ASCII.
    now rewrite A. }
  assert (I1 : int (PLUS :: s) = PyLong_FromString (PLUS :: s)).
  { unfold int, TransformDecimalAndSpaceToASCII, PyUnicode_IS_ASCII.
    cbn [forallb]. now rewrite A. }
  assert (I2 : int (MINUS :: s) = PyLong_FromString (MINUS :: s)).
  { unfold int, TransformDecimalAndSpaceToASCII, PyUnicode_IS_ASCII.
    cbn [forallb]. now rewrite A. }
  rewrite I0, I1, I2, L0, L1, L2, Len.
  destruct (exceeds_limit _ _); repeat split.
Qed.

Lemma transform_keeps_prefix p s :
  forallb (fun c => N.ltb c 127) p = true ->
  exists t, TransformDecimalAndSpaceToASCII (p ++ s) = p ++ t.
Proof.
  intros H. unfold TransformDecimalAndSpaceToASCII.
  destruct (PyUnicode_IS_ASCII (p ++ s)); [eauto|].
  exists (transform_loop s).
  induction p as [|c p IH]; [reflexivity|]. cbn [forallb] in H.
  apply andb_true_iff in H as [Hc H]. cbn [app transform_loop].
  rewrite Hc, (IH H). reflexivity.
Qed.

(** X10.  [int] refuses, whatever follows: a text that starts with an
    underscore, a sign followed by an underscore, and two signs in a
    row. *)
Theorem int_refuses_bad_starts s :
  int (UNDERSCORE :: s) = Raise ValueError
  /\ int (PLUS :: UNDERSCORE :: s) = Raise ValueError
  /\ int (MINUS :: UNDERSCORE :: s) = Raise ValueError
  /\ int (PLUS :: PLUS :: s) = Raise ValueError
  /\ int (PLUS :: MINUS :: s) = Raise ValueError
  /\ int (MINUS :: PLUS :: s) = Raise ValueError
  /\ int (MINUS :: MINUS :: s) = Raise ValueError.
Proof.
  assert (R : forall p, forallb (fun c => N.ltb c 127) p = true ->
            (forall t, PyLong_FromString (p ++ t) = Raise ValueError) ->
            int (p ++ s) = Raise ValueError).
  { intros p Hp Ht. unfold int.
    destruct (transform_keeps_prefix p s Hp) as (t & ->). apply Ht. }
  repeat split.
  - apply (R [UNDERSCORE]); reflexivity.
  - apply (R [PLUS; UNDERSCORE]); reflexivity.
  - apply (R [MINUS; UNDERSCORE]); reflexivity.
  - apply (R [PLUS; PLUS]); [reflexivity|]. intros t.
    unfold PyLong_FromString, long_from_string_base. cbn.
    rewrite Nat.eqb_refl. reflexivity.
  - apply (R [PLUS; MINUS]); [reflexivity|]. intros t.
    unfold PyLong_FromString, long_from_string_base. cbn.
    rewrite Nat.eqb_refl. reflexivity.
  - apply (R [MINUS; PLUS]); [reflexivity|]. intros t.
    unfold PyLong_FromString, long_from_string_base. cbn.
    rewrite Nat.eqb_refl. reflexivity.
  - apply (R [MINUS; MINUS]); [reflexivity|]. intros t.
    unfold PyLong_FromString, long_from_string_base. cbn.
    rewrite Nat.eqb_refl. reflexivity.
Qed.

(** ** What is printed *)

Lemma square_line_no_newline n r : ~ In NEWLINE (square_line n r).
Proof.
  unfold square_line. intros I.
  apply in_app_iff in I as [I|I]; [cbv in I; intuition discriminate|].
  apply in_app_iff in I as [I|I]; [exact (decimal_no_newline _ I)|].
  apply in_app_iff in I as [I|I]; [cbv in I; intuition discriminate|].
  exact (decimal_no_newline _ I).
Qed.

Lemma count_no_newline (l : list N) :
  ~ In NEWLINE l -> count_occ N.eq_dec l NEWLINE = 0%nat.
Proof. apply count_occ_not_In. Qed.

Lemma count_cons_newline (l : list N) :
  count_occ N.eq_dec (NEWLINE :: l) NEWLINE = S (count_occ N.eq_dec l NEWLINE).
Proof. apply count_occ_cons_eq. reflexivity. Qed.

Ltac count_newlines :=
  unfold str, char in *;
  repeat first
    [ rewrite count_occ_app | rewrite count_cons_newline
    | match goal with H : count_occ _ _ _ = 0%nat |- _ => rewrite H end ];
  reflexivity.

(** X11.  The result shown is never negative: in every invocation that
    completes, the text after " is " is a plain numeral, the decimal text
    of a number that is at least zero, whatever the sign of the number
    entered. *)
Theorem result_is_unsigned inp w :
  run inp = (Normal tt, w) ->
  exists n,
    last (printed (events w)) [] =
      py "The square of " ++ decimal n ++ py " is " ++ decimal (n * n)
    /\ (0 <= n * n)%Z
    /\ plain_numeral (decimal (n * n)) = true.
Proof.
  intros R.
  destruct (run_completed _ _ R)
    as (l1 & r1 & l2 & n & _ & _ & _ & _ & _ & _ & _ & E).
  exists n. rewrite E. events_simpl. split; [reflexivity|].
  pose proof (Z.square_nonneg n) as S. split; [exact S|].
  unfold decimal. destruct (Z.ltb_spec (n * n) 0) as [N|_]; [lia|].
  pose proof (digit_chars_are_digits _ (digits_of_small (Z.abs_N (n * n)))) as D.
  destruct (digits_of_cons (Z.abs_N (n * n))) as (d & ds & Ed).
  rewrite Ed in *. exact D.
Qed.

(** X12.  Every text given to [print] is a single line: it contains no
    newline, whatever the name typed, so standard output has exactly as
    many newlines as lines were printed, two when the invocation
    completes. *)
Theorem printed_lines_are_lines inp :
  Forall (fun l => ~ In NEWLINE l) (printed (events (snd (run inp))))
  /\ count_occ N.eq_dec (stdout_text (events (snd (run inp)))) NEWLINE =
       length (printed (events (snd (run inp))))
  /\ (fst (run inp) = Normal tt ->
      length (printed (events (snd (run inp)))) = 2%nat).
Proof.
  pose proof (run_session inp) as S.
  pose proof (text_has_no_newline inp) as L.
  destruct (run inp) as [r w]. cbn [fst snd] in *.
  assert (P : forall q, q = name_prompt \/ q = number_prompt ->
            count_occ N.eq_dec (if terminal then [] else q) NEWLINE = 0%nat).
  { intros q [-> | ->]; destruct terminal; reflexivity. }
  pose proof (P _ (or_introl eq_refl)) as P1.
  pose proof (P _ (or_intror eq_refl)) as P2. clear P.
  inversion S; subst; cbn [events];
    try (match goal with H : readline inp = _ |- _ =>
           rewrite H in L; cbn [fst] in L end;
         pose proof (greet_no_newline _ L) as G;
         pose proof (count_no_newline _ G) as CG);
    events_simpl.
  - repeat split; [constructor| |discriminate]. count_newlines.
  - repeat split; [repeat constructor; assumption| |discriminate].
    count_newlines.
  - repeat split; [repeat constructor; assumption| |discriminate].
    count_newlines.
  - repeat split; [repeat constructor; assumption| |discriminate].
    count_newlines.
  - pose proof (square_line_no_newline n (n * n)) as SL.
    pose proof (count_no_newline _ SL) as CS.
    repeat split; [repeat constructor; assumption|].
    count_newlines.
Qed.

Lemma format_int_exceeds n :
  exceeds_limit int_max_str_digits (ndigits n) = true ->
  format_int n = Raise ValueError.
Proof.
  unfold exceeds_limit, format_int. intros X.
  apply andb_true_iff in X as [X X3]. apply andb_true_iff in X as [X1 X2].
  assert (L : (length (decimal n) - (if Z.ltb n 0 then 1 else 0))%nat
              = ndigits n).
  { unfold decimal, ndigits. destruct (Z.ltb n 0); cbn [length];
      rewrite length_map; lia. }
  rewrite L, X2, X3. apply Nat.ltb_lt in X1.
  destruct (Nat.ltb_spec MAX_STR_DIGITS_THRESHOLD (length (decimal n)));
    [reflexivity|lia].
Qed.


End Interpreter.

(** * Concrete runs *)


(** C4: with streams that are not terminals, on the input lines "Ada" and
    "4" the invocation completes, and its standard output is not the two
    lines alone: each is preceded by a prompt. *)
Lemma ada_4_output_has_prompts :
  fst (run ucd_isspace ucd_todecimal_excerpt DEFAULT_MAX_STR_DIGITS false
       (py "Ada" ++ [NEWLINE] ++ py "4" ++ [NEWLINE])) = Normal tt
  /\ stdout_text (events (snd (run ucd_isspace ucd_todecimal_excerpt DEFAULT_MAX_STR_DIGITS false
       (py "Ada" ++ [NEWLINE] ++ py "4" ++ [NEWLINE])))) =
       py "Please enter your name: Hello, Ada! Welcome to the improved code."
       ++ [NEWLINE] ++ py "Enter a number to square: The square of 4 is 16"
       ++ [NEWLINE]
  /\ stdout_text (events (snd (run ucd_isspace ucd_todecimal_excerpt DEFAULT_MAX_STR_DIGITS false
       (py "Ada" ++ [NEWLINE] ++ py "4" ++ [NEWLINE])))) <>
       py "Hello, Ada! Welcome to the improved code." ++ [NEWLINE]
       ++ py "The square of 4 is 16" ++ [NEWLINE].
Proof. repeat split. discriminate. Qed.


(** ** The theorems at concrete inputs *)

(** C2 on the input lines "Bob" and "-3". *)
Lemma square_is_product_at_bob :
  exists l1 l2 n,
    reads (events (snd (run ucd_isspace ucd_todecimal_excerpt DEFAULT_MAX_STR_DIGITS false
       (py "Bob" ++ [NEWLINE] ++ py "-3" ++ [NEWLINE])))) = [l1; l2]
    /\ int ucd_isspace ucd_todecimal_excerpt DEFAULT_MAX_STR_DIGITS (chomp false l2) = Normal n
    /\ last (printed (events (snd (run ucd_isspace ucd_todecimal_excerpt DEFAULT_MAX_STR_DIGITS false
       (py "Bob" ++ [NEWLINE] ++ py "-3" ++ [NEWLINE]))))) [] =
         square_line n (int_pow n 2)
    /\ int_pow n 2 = (n * n)%Z.
Proof.
  apply (proj2 (square_is_product ucd_isspace ucd_todecimal_excerpt DEFAULT_MAX_STR_DIGITS false)
           (py "Bob" ++ [NEWLINE] ++ py "-3" ++ [NEWLINE])
           (snd (run ucd_isspace ucd_todecimal_excerpt DEFAULT_MAX_STR_DIGITS false
       (py "Bob" ++ [NEWLINE] ++ py "-3" ++ [NEWLINE])))).
  reflexivity.
Defined.


(** C4 on the input lines "Ada" and "4", on a terminal. *)
Lemma two_lines_after_prompts_at_ada :
  exists l1 l2 n,
    reads (events (snd (run ucd_isspace ucd_todecimal_excerpt DEFAULT_MAX_STR_DIGITS true
       (py "Ada" ++ [NEWLINE] ++ py "4" ++ [NEWLINE])))) = [l1; l2]
    /\ int ucd_isspace ucd_todecimal_excerpt DEFAULT_MAX_STR_DIGITS (chomp true l2) = Normal n
    /\ printed (events (snd (run ucd_isspace ucd_todecimal_excerpt DEFAULT_MAX_STR_DIGITS true
       (py "Ada" ++ [NEWLINE] ++ py "4" ++ [NEWLINE])))) =
         [greet (chomp true l1); square_line n (n * n)]
    /\ stdout_text (events (snd (run ucd_isspace ucd_todecimal_excerpt DEFAULT_MAX_STR_DIGITS true
       (py "Ada" ++ [NEWLINE] ++ py "4" ++ [NEWLINE])))) =
         greet (chomp true l1) ++ [NEWLINE] ++
         square_line n (n * n) ++ [NEWLINE].
Proof.
  apply (proj2 (two_lines_after_prompts ucd_isspace ucd_todecimal_excerpt DEFAULT_MAX_STR_DIGITS true)
           (py "Ada" ++ [NEWLINE] ++ py "4" ++ [NEWLINE])
           (snd (run ucd_isspace ucd_todecimal_excerpt DEFAULT_MAX_STR_DIGITS true
       (py "Ada" ++ [NEWLINE] ++ py "4" ++ [NEWLINE])))).
  reflexivity.
Defined.





(** ** The further properties at concrete inputs *)

(** X1 for the name "Ada". *)
Lemma greet_injective_at_ada : py "Ada" = py "Ada".
Proof. apply (greet_injective (py "Ada") (py "Ada")). reflexivity. Defined.



(** X6 for the lines "Ada" and "4", the streams not being terminals. *)
Lemma final_newline_is_optional_at_4 :
  fst (run ucd_isspace ucd_todecimal_excerpt DEFAULT_MAX_STR_DIGITS false
       (py "Ada" ++ NEWLINE :: py "4")) =
    fst (run ucd_isspace ucd_todecimal_excerpt DEFAULT_MAX_STR_DIGITS false
       (py "Ada" ++ NEWLINE :: py "4" ++ [NEWLINE]))
  /\ printed (events (snd (run ucd_isspace ucd_todecimal_excerpt DEFAULT_MAX_STR_DIGITS false
       (py "Ada" ++ NEWLINE :: py "4")))) =
       printed (events (snd (run ucd_isspace ucd_todecimal_excerpt DEFAULT_MAX_STR_DIGITS false
       (py "Ada" ++ NEWLINE :: py "4" ++ [NEWLINE]))))
  /\ stdout_text (events (snd (run ucd_isspace ucd_todecimal_excerpt DEFAULT_MAX_STR_DIGITS false
       (py "Ada" ++ NEWLINE :: py "4")))) =
       stdout_text (events (snd (run ucd_isspace ucd_todecimal_excerpt DEFAULT_MAX_STR_DIGITS false
       (py "Ada" ++ NEWLINE :: py "4" ++ [NEWLINE])))).
Proof.
  apply (final_newline_is_optional ucd_isspace ucd_todecimal_excerpt DEFAULT_MAX_STR_DIGITS false (py "Ada") (py "4")).
  - reflexivity.
  - vm_compute. intuition discriminate.
  - vm_compute. intuition discriminate.
  - discriminate.
Defined.

(** X8 for "42" between a blank and a tab. *)
Lemma int_ignores_surrounding_space_at_42 :
  int ucd_isspace ucd_todecimal_excerpt DEFAULT_MAX_STR_DIGITS (py " " ++ py "42" ++ [9%N]) = int ucd_isspace ucd_todecimal_excerpt DEFAULT_MAX_STR_DIGITS (py "42").
Proof.
  apply (int_ignores_surrounding_space ucd_isspace ucd_todecimal_excerpt DEFAULT_MAX_STR_DIGITS (py " ") (py "42") [9%N]);
    reflexivity.
Defined.

(** X9 for "007". *)
Lemma int_of_signed_numeral_at_007 :
  int ucd_isspace ucd_todecimal_excerpt DEFAULT_MAX_STR_DIGITS (py "007") =
    (if exceeds_limit DEFAULT_MAX_STR_DIGITS (length (py "007"))
     then Raise ValueError
     else Normal (Z.of_N (digits_value (map (fun c => c - 48)%N (py "007")))))
  /\ int ucd_isspace ucd_todecimal_excerpt DEFAULT_MAX_STR_DIGITS (PLUS :: py "007") = int ucd_isspace ucd_todecimal_excerpt DEFAULT_MAX_STR_DIGITS (py "007")
  /\ int ucd_isspace ucd_todecimal_excerpt DEFAULT_MAX_STR_DIGITS (MINUS :: py "007") =
       match int ucd_isspace ucd_todecimal_excerpt DEFAULT_MAX_STR_DIGITS (py "007") with
       | Normal v => Normal (- v)%Z
       | Raise e => Raise e
       end.
Proof.
  apply (int_of_signed_numeral ucd_isspace ucd_todecimal_excerpt DEFAULT_MAX_STR_DIGITS (py "007")).
  reflexivity.
Defined.

(** X11 on the input lines "Bob" and "-3". *)
Lemma result_is_unsigned_at_bob :
  exists n,
    last (printed (events (snd (run ucd_isspace ucd_todecimal_excerpt DEFAULT_MAX_STR_DIGITS false
       (py "Bob" ++ [NEWLINE] ++ py "-3" ++ [NEWLINE]))))) [] =
      py "The square of " ++ decimal n ++ py " is " ++ decimal (n * n)
    /\ (0 <= n * n)%Z
    /\ plain_numeral (decimal (n * n)) = true.
Proof.
  apply (result_is_unsigned ucd_isspace ucd_todecimal_excerpt DEFAULT_MAX_STR_DIGITS false
           (py "Bob" ++ [NEWLINE] ++ py "-3" ++ [NEWLINE])
           (snd (run ucd_isspace ucd_todecimal_excerpt DEFAULT_MAX_STR_DIGITS false
       (py "Bob" ++ [NEWLINE] ++ py "-3" ++ [NEWLINE])))).
  reflexivity.
Defined.

